(** * Lead Radar Settings: the "Publish GitOps Config" form button

    A shallow embedding of
    [ftg_lead_radar/doctype/lead_radar_settings/lead_radar_settings.js].

    The script registers one custom button on the settings form.  Its click
    handler is an async function: it awaits [frappe.call], reads
    [r?.message?.commit_url], shows one of two [frappe.msgprint] dialogs and
    awaits [frm.reload_doc()].

    The embedding has three layers:
    - JavaScript data: strings as sequences of UTF-16 code units, the values
      a JSON response can hold, [ToBoolean], [ToString], property access and
      the built-in [encodeURI];
    - the host primitives the handler calls, as the nodes of a small
      program tree ([async]) that an interpreter ([run]) turns into a log
      of host interactions and a settlement of the handler's promise;
    - the handler itself, written statement by statement after the source. *)

From Stdlib Require Import List NArith ZArith Ascii String Bool Lia.
Import ListNotations.

Set Implicit Arguments.
Set Warnings "-register-all".
Local Open Scope N_scope.

(** ** JavaScript strings *)

(** A JavaScript string is a sequence of 16-bit code units. *)
Definition code_unit := N.
Definition jsstring := list code_unit.

(** An ASCII literal of the source as a [jsstring]. *)
Fixpoint lit (s : string) : jsstring :=
  match s with
  | EmptyString => []
  | String c s' => N_of_ascii c :: lit s'
  end.
Arguments lit s%_string.

(** The double quote, U+0022, and a double-quoted attribute value. *)
Definition dquote : code_unit := 34.
Definition quoted (s : jsstring) : jsstring := dquote :: s ++ [dquote].

Fixpoint jsstring_eqb (a b : jsstring) : bool :=
  match a, b with
  | [], [] => true
  | x :: a', y :: b' => N.eqb x y && jsstring_eqb a' b'
  | _, _ => false
  end.

(** [s.startsWith(p)] and [s.includes(p)], used to state what a message
    body contains. *)
Fixpoint starts_with (p s : jsstring) : bool :=
  match p, s with
  | [], _ => true
  | x :: p', y :: s' => N.eqb x y && starts_with p' s'
  | _ :: _, [] => false
  end.

Fixpoint includes (p s : jsstring) : bool :=
  starts_with p s ||
  match s with
  | [] => false
  | _ :: s' => includes p s'
  end.

(** ** JavaScript values *)

(** IEEE doubles are kept abstract: the handler only needs to know whether a
    number is truthy and how it prints. *)
Class JSNumber : Type := {
  Number : Type;
  Number_ToBoolean : Number -> bool;
  Number_toString : Number -> jsstring
}.

(** A small instance for concrete runs: integers, which a double holds
    exactly and prints in plain decimal below 2^53. *)
Fixpoint decimal_digits (fuel : nat) (n : N) : jsstring :=
  match fuel with
  | O => []
  | S fuel' =>
      (if N.ltb n 10 then [] else decimal_digits fuel' (N.div n 10))
      ++ [N.add 48 (N.modulo n 10)]
  end.

Definition integer_toString (z : Z) : jsstring :=
  match z with
  | Z0 => lit "0"
  | Zpos p => decimal_digits 20%nat (Npos p)
  | Zneg p => lit "-" ++ decimal_digits 20%nat (Npos p)
  end.

#[export] Instance integer_numbers : JSNumber := {|
  Number := Z;
  Number_ToBoolean := fun z => negb (Z.eqb z 0);
  Number_toString := integer_toString
|}.

Section Values.
Context {num : JSNumber}.

(** What [frappe.call] can resolve with: [undefined], or data parsed from
    the JSON body of the response.  An object is its list of own
    properties; [JSON.parse] leaves keys unique, and [own_property] reads
    the first binding of a key. *)
Inductive value : Type :=
| JUndefined
| JNull
| JBool (b : bool)
| JNum (n : Number)
| JStr (s : jsstring)
| JArr (elems : list value)
| JObj (props : list (jsstring * value)).

(** Exceptions the handler can meet, and the rejection of an awaited
    promise with the host's reason. *)
Inductive exn : Type :=
| TypeError
| URIError
| Rejection (reason : value).

(** A completion: normal with a value, or abrupt with a thrown exception. *)
Inductive result (A : Type) : Type :=
| Normal (a : A)
| Abrupt (e : exn).
Arguments Normal {A} a.
Arguments Abrupt {A} e.

Definition result_bind {A B} (c : result A) (k : A -> result B) : result B :=
  match c with
  | Normal a => k a
  | Abrupt e => Abrupt e
  end.

Fixpoint own_property (props : list (jsstring * value)) (key : jsstring)
  : option value :=
  match props with
  | [] => None
  | (k, v) :: rest => if jsstring_eqb k key then Some v else own_property rest key
  end.

Definition is_nullish (v : value) : bool :=
  match v with
  | JUndefined | JNull => true
  | _ => false
  end.

(** [v.key] for a key that is neither an array index nor a member of a
    built-in prototype (true of [message] and [commit_url], the two keys the
    handler reads): [undefined] and [null] have no properties and the access
    throws; an object yields its own property; everything else yields
    [undefined]. *)
Definition Get (v : value) (key : jsstring) : result value :=
  match v with
  | JUndefined | JNull => Abrupt TypeError
  | JObj props =>
      match own_property props key with
      | Some x => Normal x
      | None => Normal JUndefined
      end
  | _ => Normal JUndefined
  end.

(** [v?.key]: the access is skipped, with [undefined], on a nullish base. *)
Definition optional_Get (v : value) (key : jsstring) : result value :=
  if is_nullish v then Normal JUndefined else Get v key.

Definition ToBoolean (v : value) : bool :=
  match v with
  | JUndefined | JNull => false
  | JBool b => b
  | JNum n => Number_ToBoolean n
  | JStr s => match s with [] => false | _ :: _ => true end
  | JArr _ | JObj _ => true
  end.

(** [ToString].  An array prints as [join(",")], with nullish elements
    printed empty.  A parsed object has no callable own property, so one
    with an own [toString] has no usable conversion and throws a TypeError;
    any other object prints through [Object.prototype.toString]. *)
Fixpoint ToString (v : value) : result jsstring :=
  match v with
  | JUndefined => Normal (lit "undefined")
  | JNull => Normal (lit "null")
  | JBool true => Normal (lit "true")
  | JBool false => Normal (lit "false")
  | JNum n => Normal (Number_toString n)
  | JStr s => Normal s
  | JArr elems =>
      (fix join (first : bool) (vs : list value) : result jsstring :=
         match vs with
         | [] => Normal []
         | x :: rest =>
             result_bind (if is_nullish x then Normal [] else ToString x)
               (fun s =>
                  result_bind (join false rest)
                    (fun t => Normal ((if first then [] else lit ",") ++ s ++ t)))
         end) true elems
  | JObj props =>
      match own_property props (lit "toString") with
      | Some _ => Abrupt TypeError
      | None => Normal (lit "[object Object]")
      end
  end.

(** ** [encodeURI] *)

(** The characters [encodeURI] leaves alone: ASCII letters and digits,
    [_ - . ! ~ * ' ( )], the reserved [; / ? : @ & = + $ ,] and [#]. *)
Definition is_alpha (c : code_unit) : bool :=
  (N.leb 65 c && N.leb c 90) || (N.leb 97 c && N.leb c 122).

Definition is_digit (c : code_unit) : bool := N.leb 48 c && N.leb c 57.

Definition uri_unescaped (c : code_unit) : bool :=
  is_alpha c || is_digit c
  || existsb (N.eqb c) (lit "_-.!~*'()")
  || existsb (N.eqb c) (lit ";/?:@&=+$,#").

Definition is_leading_surrogate (c : code_unit) : bool :=
  N.leb 55296 c && N.leb c 56319.

Definition is_trailing_surrogate (c : code_unit) : bool :=
  N.leb 56320 c && N.leb c 57343.

(** [UTF16SurrogatePairToCodePoint]. *)
Definition surrogate_pair_to_code_point (lead trail : code_unit) : N :=
  (lead - 55296) * 1024 + (trail - 56320) + 65536.

(** The UTF-8 octets of a code point. *)
Definition utf8_octets (cp : N) : list N :=
  if N.ltb cp 128 then [cp]
  else if N.ltb cp 2048 then
    [N.lor 192 (N.shiftr cp 6); N.lor 128 (N.land cp 63)]
  else if N.ltb cp 65536 then
    [N.lor 224 (N.shiftr cp 12);
     N.lor 128 (N.land (N.shiftr cp 6) 63);
     N.lor 128 (N.land cp 63)]
  else
    [N.lor 240 (N.shiftr cp 18);
     N.lor 128 (N.land (N.shiftr cp 12) 63);
     N.lor 128 (N.land (N.shiftr cp 6) 63);
     N.lor 128 (N.land cp 63)].

Definition hex_digit (d : N) : code_unit :=
  if N.ltb d 10 then 48 + d else 55 + d.

(** One octet as [%XX], in upper-case hexadecimal. *)
Definition percent_octet (b : N) : jsstring :=
  [37; hex_digit (N.land (N.shiftr b 4) 15); hex_digit (N.land b 15)].

Definition percent_encode (cp : N) : jsstring :=
  flat_map percent_octet (utf8_octets cp).

(** The abstract operation [Encode] with the unescaped set of [encodeURI]:
    a code unit of the set is copied; any other is read as a code point
    (two code units for a surrogate pair) and written as the percent-escaped
    octets of its UTF-8 form; an unpaired surrogate throws a URIError. *)
Fixpoint Encode (s : jsstring) : result jsstring :=
  match s with
  | [] => Normal []
  | c :: rest =>
      if uri_unescaped c then
        result_bind (Encode rest) (fun t => Normal (c :: t))
      else if is_trailing_surrogate c then Abrupt URIError
      else if is_leading_surrogate c then
        match rest with
        | [] => Abrupt URIError
        | d :: rest' =>
            if is_trailing_surrogate d then
              result_bind (Encode rest')
                (fun t =>
                   Normal (percent_encode (surrogate_pair_to_code_point c d) ++ t))
            else Abrupt URIError
        end
      else
        result_bind (Encode rest) (fun t => Normal (percent_encode c ++ t))
  end.

(** What [Encode] can write: a code unit it leaves alone, or [%]. *)
Definition uri_safe (c : code_unit) : bool := uri_unescaped c || N.eqb c 37.

(** The string holds a character that [encodeURI] has to escape. *)
Definition needs_escaping (s : jsstring) : bool :=
  existsb (fun c => negb (uri_unescaped c)) s.

(** [String.prototype.isWellFormed]: no surrogate stands without its
    partner. *)
Fixpoint isWellFormed (s : jsstring) : bool :=
  match s with
  | [] => true
  | c :: rest =>
      if is_leading_surrogate c then
        match rest with
        | [] => false
        | d :: rest' => is_trailing_surrogate d && isWellFormed rest'
        end
      else negb (is_trailing_surrogate c) && isWellFormed rest
  end.

(** [encodeURI(v)]: the argument is converted to a string first. *)
Definition encodeURI (v : value) : result jsstring :=
  result_bind (ToString v) Encode.

(** ** Host primitives *)

(** Modelled from the spec: the host's localisation function [__], which is
    not part of this repository.  The spec describes it as a
    [Translate(key, args) -> string] capability that may be stubbed as
    identity where nothing is localised: a message is its own translation.
    When replacements are passed, each positional placeholder [{n}] is
    replaced by the n-th of them, inserted as it is and not scanned again;
    a placeholder without a replacement is left in place. *)
Fixpoint format_from (replace : list jsstring)
    (pending : option (jsstring * option nat)) (txt : jsstring) : jsstring :=
  match txt with
  | [] => match pending with Some (raw, _) => raw | None => [] end
  | c :: rest =>
      match pending with
      | None =>
          if N.eqb c 123 then format_from replace (Some ([c], None)) rest
          else c :: format_from replace None rest
      | Some (raw, idx) =>
          if is_digit c then
            let i := match idx with Some i => i | None => O end in
            format_from replace
              (Some (raw ++ [c], Some (10 * i + N.to_nat (c - 48))%nat)) rest
          else if N.eqb c 125 then
            match idx with
            | Some i =>
                match nth_error replace i with
                | Some a => a ++ format_from replace None rest
                | None => raw ++ c :: format_from replace None rest
                end
            | None => raw ++ c :: format_from replace None rest
            end
          else if N.eqb c 123 then
            raw ++ format_from replace (Some ([c], None)) rest
          else raw ++ c :: format_from replace None rest
      end
  end.

Definition __ (txt : jsstring) (replace : option (list jsstring)) : jsstring :=
  match replace with
  | Some replacements => format_from replacements None txt
  | None => txt
  end.

(** The options object of [frappe.call]; [args] are the request
    parameters, absent when the key is. *)
Record call_opts : Type := {
  method : jsstring;
  args : option value;
  freeze : bool
}.

(** The options object of [frappe.msgprint]. *)
Record msgprint_opts : Type := {
  title : jsstring;
  message : jsstring;
  indicator : jsstring
}.

(** How a promise of the host settles. *)
Inductive settled (A : Type) : Type :=
| Fulfilled (a : A)
| Rejected (reason : value).
Arguments Fulfilled {A} a.
Arguments Rejected {A} reason.

(** ** Async functions over the host *)

(** The body of an async function as a tree: it returns, throws, or performs
    one host operation and continues with what the host answers.
    [frappe.call] and [frm.reload_doc] answer with a promise that has
    settled by the time the function resumes. *)
Inductive async (R : Type) : Type :=
| Return (r : R)
| Throw (e : exn)
| frappe_call (opts : call_opts) (k : settled value -> async R)
| frappe_msgprint (opts : msgprint_opts) (k : unit -> async R)
| frm_reload_doc (k : settled unit -> async R).
Arguments Return {R} r.
Arguments Throw {R} e.
Arguments frappe_call {R} opts k.
Arguments frappe_msgprint {R} opts k.
Arguments frm_reload_doc {R} k.

Fixpoint bind {A B} (c : async A) (f : A -> async B) : async B :=
  match c with
  | Return a => f a
  | Throw e => Throw e
  | frappe_call opts k => frappe_call opts (fun p => bind (k p) f)
  | frappe_msgprint opts k => frappe_msgprint opts (fun u => bind (k u) f)
  | frm_reload_doc k => frm_reload_doc (fun p => bind (k p) f)
  end.

Notation "x <- c ;; k" := (bind c (fun x => k))
  (at level 61, c at next level, right associativity).
Notation "c ;; k" := (bind c (fun _ => k))
  (at level 61, right associativity).

(** An expression evaluated inside the function: an abrupt completion is
    thrown. *)
Definition eval {A} (c : result A) : async A :=
  match c with
  | Normal a => Return a
  | Abrupt e => Throw e
  end.

(** What [await] makes of a settled promise: the value of a fulfilled one;
    a rejected one throws its reason, as it is, into the function. *)
Definition awaited {A} (p : settled A) : result A :=
  match p with
  | Fulfilled a => Normal a
  | Rejected reason => Abrupt (Rejection reason)
  end.

Definition await {A} (p : async (settled A)) : async A :=
  s <- p ;; eval (awaited s).

Definition call (opts : call_opts) : async (settled value) :=
  frappe_call opts Return.
Definition msgprint (opts : msgprint_opts) : async unit :=
  frappe_msgprint opts Return.
Definition reload_doc : async (settled unit) :=
  frm_reload_doc Return.

(** ** The form script *)

(** [r?.message?.commit_url] *)
Definition commit_url_of (r : value) : result value :=
  result_bind (optional_Get r (lit "message"))
    (fun m => optional_Get m (lit "commit_url")).

(** The template literal
    [<a href="${encodeURI(commit_url)}" target="_blank" rel="noreferrer">${commit_url}</a>],
    after its two substitutions have been evaluated. *)
Definition anchor (href text : jsstring) : jsstring :=
  lit "<a href=" ++ quoted href
  ++ lit " target=" ++ quoted (lit "_blank")
  ++ lit " rel=" ++ quoted (lit "noreferrer")
  ++ lit ">" ++ text ++ lit "</a>".

Definition publish_config_call : call_opts :=
  {| method := lit "ftg_lead_radar.api.publish_config";
     args := None;
     freeze := true |}.

(** The async arrow function passed to [frm.add_custom_button]. *)
Definition click_handler : async unit :=
  r <- await (call publish_config_call) ;;
  commit_url <- eval (commit_url_of r) ;;
  (if ToBoolean commit_url then
     href <- eval (encodeURI commit_url) ;;
     text <- eval (ToString commit_url) ;;
     msgprint
       {| title := __ (lit "Published") None;
          message := __ (lit "Committed to GitHub: {0}") (Some [anchor href text]);
          indicator := lit "green" |}
   else
     msgprint
       {| title := __ (lit "Published") None;
          message := __ (lit "Committed to GitHub.") None;
          indicator := lit "green" |}) ;;
  await reload_doc.

(** The form, as far as the script touches it: its custom buttons. *)
Record form : Type := {
  custom_buttons : list (jsstring * async unit)
}.

Definition add_custom_button (frm : form) (label : jsstring)
    (action : async unit) : form :=
  {| custom_buttons := custom_buttons frm ++ [(label, action)] |}.

(** The [refresh] handler of the form. *)
Definition refresh (frm : form) : form :=
  add_custom_button frm (__ (lit "Publish GitOps Config") None) click_handler.

(** ** Running the handler against a host *)

(** The host's side of one run: how the remote call and the reload settle. *)
Record host : Type := {
  call_settles : call_opts -> settled value;
  reload_settles : settled unit
}.

(** What the host sees, in order. *)
Inductive event : Type :=
| CallIssued (opts : call_opts)
| CallSettled (p : settled value)
| MsgprintShown (opts : msgprint_opts)
| ReloadInvoked.

(** The log of a run and the settlement of the function's own promise:
    [Normal] when it fulfils, [Abrupt e] when it rejects with [e]. *)
Fixpoint run {R} (h : host) (p : async R) : list event * result R :=
  match p with
  | Return r => ([], Normal r)
  | Throw e => ([], Abrupt e)
  | frappe_call opts k =>
      let s := call_settles h opts in
      let (log, res) := run h (k s) in
      (CallIssued opts :: CallSettled s :: log, res)
  | frappe_msgprint opts k =>
      let (log, res) := run h (k tt) in
      (MsgprintShown opts :: log, res)
  | frm_reload_doc k =>
      let (log, res) := run h (k (reload_settles h)) in
      (ReloadInvoked :: log, res)
  end.

(** One click on the button. *)
Definition execute (h : host) : list event * result unit :=
  run h click_handler.

(** Counting in a log. *)
Definition is_call (e : event) : bool :=
  match e with CallIssued _ => true | _ => false end.
Definition is_msgprint (e : event) : bool :=
  match e with MsgprintShown _ => true | _ => false end.
Definition is_reload (e : event) : bool :=
  match e with ReloadInvoked => true | _ => false end.

Definition count (f : event -> bool) (log : list event) : nat :=
  List.length (filter f log).

(** The response carries no [commit_url]: it is not an object, or has no
    [message], or its [message] is not an object, or that object has no
    such property. *)
Definition lacks_commit_url (r : value) : bool :=
  match r with
  | JObj props =>
      match own_property props (lit "message") with
      | Some (JObj mprops) =>
          match own_property mprops (lit "commit_url") with
          | Some _ => false
          | None => true
          end
      | _ => true
      end
  | _ => true
  end.

(** Hosts and responses for concrete runs. *)
Definition response_with (commit_url : value) : value :=
  JObj [(lit "message", JObj [(lit "commit_url", commit_url)])].

Definition host_resolving (r : value) : host :=
  {| call_settles := fun _ => Fulfilled r; reload_settles := Fulfilled tt |}.

Definition host_rejecting (reason : value) : host :=
  {| call_settles := fun _ => Rejected reason; reload_settles := Fulfilled tt |}.

Definition generic_notification : msgprint_opts :=
  {| title := lit "Published";
     message := lit "Committed to GitHub.";
     indicator := lit "green" |}.

End Values.

Arguments Normal {num A} a.
Arguments Abrupt {num A} e.
Arguments Fulfilled {num A} a.
Arguments Rejected {num A} reason.
Arguments Return {num R} r.
Arguments Throw {num R} e.

(** ** Concrete inputs *)

(** The commit URL of a successful publish. *)
Definition commit_url_plain : jsstring :=
  lit "https://github.com/org/repo/commit/abc123".

(** A URL with spaces and a query string, and what [encodeURI] makes of
    it: the spaces are escaped, the reserved [?] and [=] are kept. *)
Definition commit_url_spaced : jsstring :=
  lit "https://github.com/org/repo/commit/abc 123?q=a b".
Definition commit_url_spaced_encoded : jsstring :=
  lit "https://github.com/org/repo/commit/abc%20123?q=a%20b".

(** A [commit_url] that is a number. *)
Definition commit_url_number : @value integer_numbers :=
  @JNum integer_numbers 42%Z.

(** A string holding markup. *)
Definition commit_url_markup : jsstring := lit "<b>&amp;</b>".

(** U+D800 on its own, and a URL cut in the middle of a surrogate pair:
    both valid JavaScript strings, as [JSON.parse] yields them from the
    escapes [\ud800] and [\ud83d]. *)
Definition lone_surrogate : jsstring := [55296].
Definition commit_url_cut : jsstring := lit "https://x.y/" ++ [55357].

(** A URL that is percent-encoded already, and what [encodeURI] makes of
    it. *)
Definition commit_url_encoded : jsstring :=
  lit "https://github.com/org/repo/blob/main/a%20b.md".
Definition commit_url_encoded_twice : jsstring :=
  lit "https://github.com/org/repo/blob/main/a%2520b.md".

(** A response with fields besides [message.commit_url]. *)
Definition response_with_more {num : JSNumber} (commit_url : value) : value :=
  JObj [(lit "exc", JNull);
        (lit "message",
         JObj [(lit "sha", JStr (lit "abc123")); (lit "commit_url", commit_url)])].

(** A host whose call resolves and whose reload rejects. *)
Definition host_reload_rejecting {num : JSNumber} (r reason : value) : host :=
  {| call_settles := fun _ => Fulfilled r; reload_settles := Rejected reason |}.

(** * Properties *)

(** ** Facts about [encodeURI] *)

Section EncodeFacts.

(** Induction over strings two code units at a time, as [Encode] reads
    them. *)
Lemma jsstring_pair_ind (P : jsstring -> Prop) :
  P [] ->
  (forall c, P [c]) ->
  (forall c d rest, P rest -> P (d :: rest) -> P (c :: d :: rest)) ->
  forall s, P s.
Proof.
  intros Hnil Hone Hstep s.
  assert (both : P s /\ forall c, P (c :: s)).
  { induction s as [|d rest [IH1 IH2]]; split; auto. }
  exact (proj1 both).
Qed.

Lemma uri_unescaped_ascii c : uri_unescaped c = true -> c < 128.
Proof.
  unfold uri_unescaped, is_alpha, is_digit; cbn [lit existsb N_of_ascii].
  intros H.
  repeat match type of H with
         | (_ || _) = true => apply orb_true_iff in H; destruct H as [H|H]
         | (_ && _) = true => apply andb_true_iff in H; destruct H as [? H]
         end;
  try discriminate;
  repeat match goal with
         | E : N.leb _ _ = true |- _ => apply N.leb_le in E
         | E : N.eqb _ _ = true |- _ => apply N.eqb_eq in E
         end;
  try (vm_compute in H; subst c; reflexivity);
  lia.
Qed.

Lemma uri_unescaped_not_surrogate c :
  uri_unescaped c = true ->
  is_leading_surrogate c = false /\ is_trailing_surrogate c = false.
Proof.
  intros H; apply uri_unescaped_ascii in H.
  unfold is_leading_surrogate, is_trailing_surrogate.
  split; apply andb_false_iff; left; apply N.leb_gt; lia.
Qed.

Lemma surrogates_disjoint c :
  is_leading_surrogate c = true -> is_trailing_surrogate c = false.
Proof.
  unfold is_leading_surrogate, is_trailing_surrogate; intros H.
  apply andb_true_iff in H; destruct H as [_ H]; apply N.leb_le in H.
  apply andb_false_iff; left; apply N.leb_gt; lia.
Qed.

Lemma Encode_cons2 {num : JSNumber} c d rest :
  Encode (c :: d :: rest) =
  if uri_unescaped c then
    result_bind (Encode (d :: rest)) (fun t => Normal (c :: t))
  else if is_trailing_surrogate c then Abrupt URIError
  else if is_leading_surrogate c then
    if is_trailing_surrogate d then
      result_bind (Encode rest)
        (fun t => Normal (percent_encode (surrogate_pair_to_code_point c d) ++ t))
    else Abrupt URIError
  else result_bind (Encode (d :: rest)) (fun t => Normal (percent_encode c ++ t)).
Proof. reflexivity. Qed.

(** [encodeURI] throws exactly on the strings that are not well formed. *)
Lemma Encode_succeeds_iff {num : JSNumber} (s : jsstring) :
  isWellFormed s = true <-> exists t, Encode s = Normal t.
Proof.
  induction s as [|c|c d rest IH1 IH2] using jsstring_pair_ind.
  - split; [exists []; reflexivity | reflexivity].
  - cbn. destruct (uri_unescaped c) eqn:U.
    + destruct (uri_unescaped_not_surrogate c U) as [L T]; rewrite L, T.
      split; [exists [c]; reflexivity | reflexivity].
    + destruct (is_trailing_surrogate c) eqn:T.
      * destruct (is_leading_surrogate c) eqn:L.
        -- rewrite (surrogates_disjoint c L) in T; discriminate.
        -- split; [discriminate | intros [t E]; discriminate].
      * destruct (is_leading_surrogate c) eqn:L.
        -- split; [discriminate | intros [t E]; discriminate].
        -- split; [eexists; reflexivity | reflexivity].
  - change (isWellFormed (c :: d :: rest))
      with (if is_leading_surrogate c
            then is_trailing_surrogate d && isWellFormed rest
            else negb (is_trailing_surrogate c) && isWellFormed (d :: rest)).
    rewrite Encode_cons2.
    destruct (uri_unescaped c) eqn:U.
    + destruct (uri_unescaped_not_surrogate c U) as [L T]; rewrite L, T.
      cbn [negb andb]. rewrite IH2.
      split; intros [t E]; [rewrite E; eexists; reflexivity|].
      destruct (Encode (d :: rest)); [eexists; reflexivity | discriminate].
    + destruct (is_leading_surrogate c) eqn:L.
      * rewrite (surrogates_disjoint c L).
        destruct (is_trailing_surrogate d); cbn [andb].
        -- rewrite IH1.
           split; intros [t E]; [rewrite E; eexists; reflexivity|].
           destruct (Encode rest); [eexists; reflexivity | discriminate].
        -- split; [discriminate | intros [t E]; discriminate].
      * destruct (is_trailing_surrogate c); cbn [negb andb].
        -- split; [discriminate | intros [t E]; discriminate].
        -- rewrite IH2.
           split; intros [t E]; [rewrite E; eexists; reflexivity|].
           destruct (Encode (d :: rest)); [eexists; reflexivity | discriminate].
Qed.

Lemma hex_digit_unescaped d : d < 16 -> uri_unescaped (hex_digit d) = true.
Proof.
  intros H.
  destruct d as [|p]; [reflexivity|].
  do 4 (destruct p as [p|p|]; try reflexivity); exfalso; lia.
Qed.

Lemma nibble_lt x : N.land x 15 < 16.
Proof.
  change 15 with (N.ones 4). rewrite N.land_ones.
  apply N.mod_lt. discriminate.
Qed.

Lemma percent_octet_safe b : forallb uri_safe (percent_octet b) = true.
Proof.
  unfold percent_octet, uri_safe. cbn [forallb].
  rewrite !hex_digit_unescaped by apply nibble_lt.
  reflexivity.
Qed.

Lemma percent_encode_safe cp : forallb uri_safe (percent_encode cp) = true.
Proof.
  unfold percent_encode.
  induction (utf8_octets cp) as [|b l IH]; [reflexivity|].
  cbn [flat_map]. rewrite forallb_app, percent_octet_safe, IH. reflexivity.
Qed.

Lemma percent_encode_length cp : (3 <= List.length (percent_encode cp))%nat.
Proof.
  unfold percent_encode, utf8_octets.
  destruct (N.ltb cp 128); [cbn; lia|].
  destruct (N.ltb cp 2048); [cbn; lia|].
  destruct (N.ltb cp 65536); cbn; lia.
Qed.

Ltac encode_step E :=
  match type of E with
  | result_bind (Encode ?r) _ = Normal _ =>
      let t := fresh "t" in
      let Et := fresh "Et" in
      destruct (Encode r) as [t|] eqn:Et; [|discriminate E];
      cbn [result_bind] in E; injection E as <-
  end.

(** Everything [encodeURI] writes is a code unit it leaves alone, or [%]. *)
Lemma Encode_safe {num : JSNumber} (s : jsstring) :
  forall t, Encode s = Normal t -> forallb uri_safe t = true.
Proof.
  induction s as [|c|c d rest IH1 IH2] using jsstring_pair_ind; intros t E.
  - injection E as <-. reflexivity.
  - cbn in E. destruct (uri_unescaped c) eqn:U.
    + injection E as <-. unfold uri_safe. cbn. rewrite U. reflexivity.
    + destruct (is_trailing_surrogate c); [discriminate|].
      destruct (is_leading_surrogate c); [discriminate|].
      injection E as <-. rewrite app_nil_r. apply percent_encode_safe.
  - rewrite Encode_cons2 in E. destruct (uri_unescaped c) eqn:U.
    + encode_step E. cbn [forallb]. unfold uri_safe at 1. rewrite U.
      cbn [orb andb]. now apply IH2.
    + destruct (is_trailing_surrogate c); [discriminate|].
      destruct (is_leading_surrogate c).
      * destruct (is_trailing_surrogate d); [|discriminate].
        encode_step E. rewrite forallb_app, percent_encode_safe. now apply IH1.
      * encode_step E. rewrite forallb_app, percent_encode_safe. now apply IH2.
Qed.

(** An escape is longer than what it stands for, so encoding never
    shortens a string and lengthens one that needs escaping. *)
Lemma Encode_length {num : JSNumber} (s : jsstring) :
  forall t, Encode s = Normal t ->
    (List.length s <= List.length t)%nat /\
    (needs_escaping s = true -> (List.length s < List.length t)%nat).
Proof.
  unfold needs_escaping.
  induction s as [|c|c d rest IH1 IH2] using jsstring_pair_ind; intros t E.
  - injection E as <-. split; [cbn; lia | discriminate].
  - cbn in E. destruct (uri_unescaped c) eqn:U.
    + injection E as <-. cbn. rewrite U. split; [lia | discriminate].
    + destruct (is_trailing_surrogate c); [discriminate|].
      destruct (is_leading_surrogate c); [discriminate|].
      injection E as <-. rewrite app_nil_r.
      pose proof (percent_encode_length c). cbn [List.length]. split; intros; lia.
  - rewrite Encode_cons2 in E. destruct (uri_unescaped c) eqn:U.
    + encode_step E. destruct (IH2 _ eq_refl) as [Hle Hlt].
      cbn [existsb]. rewrite U. cbn [negb orb List.length] in *.
      split; [lia|]. intros H. apply Hlt in H. lia.
    + destruct (is_trailing_surrogate c); [discriminate|].
      destruct (is_leading_surrogate c).
      * destruct (is_trailing_surrogate d); [|discriminate].
        encode_step E. destruct (IH1 _ eq_refl) as [Hle _].
        pose proof (percent_encode_length (surrogate_pair_to_code_point c d)).
        rewrite length_app. cbn [List.length]. split; intros; lia.
      * encode_step E. destruct (IH2 _ eq_refl) as [Hle _].
        pose proof (percent_encode_length c).
        rewrite length_app. cbn [List.length] in *. split; intros; lia.
Qed.

(** A string that needs no escaping is its own encoding. *)
Lemma Encode_unescaped {num : JSNumber} (s : jsstring) :
  forallb uri_unescaped s = true -> Encode s = Normal s.
Proof.
  induction s as [|c rest IH]; [reflexivity|].
  cbn [forallb]. intros H. apply andb_true_iff in H. destruct H as [U H].
  cbn [Encode]. rewrite U, (IH H). reflexivity.
Qed.

Lemma forallb_In {A} (f : A -> bool) l x :
  forallb f l = true -> In x l -> f x = true.
Proof. intros H. rewrite forallb_forall in H. apply H. Qed.

(** In particular no double quote, angle bracket or space survives. *)
Lemma Encode_no_dquote {num : JSNumber} s t :
  Encode s = Normal t -> ~ In dquote t.
Proof.
  intros E Hin. apply Encode_safe in E.
  pose proof (forallb_In _ _ _ E Hin) as H. discriminate H.
Qed.

End EncodeFacts.

(** ** Facts about the handler *)

Section HandlerFacts.
Context {num : JSNumber}.

Lemma translate_committed (a : jsstring) :
  __ (lit "Committed to GitHub: {0}") (Some [a]) = lit "Committed to GitHub: " ++ a.
Proof. cbn. rewrite app_nil_r. reflexivity. Qed.

(** Reading [r?.message?.commit_url] never throws. *)
Lemma commit_url_of_total (r : value) : exists cu, commit_url_of r = Normal cu.
Proof.
  unfold commit_url_of, optional_Get.
  destruct r as [| | | | | |props]; cbn [is_nullish Get result_bind];
    try (eexists; reflexivity).
  destruct (own_property props (lit "message")) as [m|]; cbn [result_bind].
  - destruct m as [| | | | | |mprops]; cbn [is_nullish Get result_bind];
      try (eexists; reflexivity).
    destruct (own_property mprops (lit "commit_url")); eexists; reflexivity.
  - eexists; reflexivity.
Qed.

Lemma encodeURI_ToString (cu : value) href :
  encodeURI cu = Normal href ->
  exists text, ToString cu = Normal text /\ Encode text = Normal href.
Proof.
  unfold encodeURI. destruct (ToString cu) as [text|]; [|discriminate].
  cbn [result_bind]. intros E. exists text. split; [reflexivity | exact E].
Qed.

(** [refresh] adds one button, labelled "Publish GitOps Config", whose
    action is the handler. *)
Lemma refresh_adds_button (frm : form) :
  custom_buttons (refresh frm) =
  custom_buttons frm ++ [(lit "Publish GitOps Config", click_handler)].
Proof. reflexivity. Qed.

(** The four ways a click can go. *)
Lemma execute_rejected (h : host) reason :
  call_settles h publish_config_call = Rejected reason ->
  execute h =
    ([CallIssued publish_config_call; CallSettled (Rejected reason)],
     Abrupt (Rejection reason)).
Proof.
  intros E. unfold execute, click_handler, await, call.
  cbn [bind run]. rewrite E. reflexivity.
Qed.

Lemma execute_generic (h : host) r cu :
  call_settles h publish_config_call = Fulfilled r ->
  commit_url_of r = Normal cu ->
  ToBoolean cu = false ->
  execute h =
    ([CallIssued publish_config_call; CallSettled (Fulfilled r);
      MsgprintShown {| title := lit "Published";
                       message := lit "Committed to GitHub.";
                       indicator := lit "green" |};
      ReloadInvoked],
     awaited (reload_settles h)).
Proof.
  intros E Ecu F. unfold execute, click_handler, await, call.
  cbn [bind run]. rewrite E. cbn [awaited eval bind].
  rewrite Ecu. cbn [eval bind]. rewrite F.
  unfold msgprint, reload_doc. cbn [bind run __].
  destruct (reload_settles h); reflexivity.
Qed.

Lemma execute_linked (h : host) r cu href text :
  call_settles h publish_config_call = Fulfilled r ->
  commit_url_of r = Normal cu ->
  ToBoolean cu = true ->
  ToString cu = Normal text ->
  Encode text = Normal href ->
  execute h =
    ([CallIssued publish_config_call; CallSettled (Fulfilled r);
      MsgprintShown {| title := lit "Published";
                       message := lit "Committed to GitHub: " ++ anchor href text;
                       indicator := lit "green" |};
      ReloadInvoked],
     awaited (reload_settles h)).
Proof.
  intros E Ecu T Etext Ehref. unfold execute, click_handler, await, call.
  cbn [bind run]. rewrite E. cbn [awaited eval bind].
  rewrite Ecu. cbn [eval bind]. rewrite T.
  unfold encodeURI. rewrite Etext. cbn [result_bind]. rewrite Ehref.
  cbn [eval bind]. unfold msgprint, reload_doc. cbn [bind run].
  rewrite translate_committed. cbn [__].
  destruct (reload_settles h); reflexivity.
Qed.

Lemma execute_throws (h : host) r cu e :
  call_settles h publish_config_call = Fulfilled r ->
  commit_url_of r = Normal cu ->
  ToBoolean cu = true ->
  encodeURI cu = Abrupt e ->
  execute h =
    ([CallIssued publish_config_call; CallSettled (Fulfilled r)], Abrupt e).
Proof.
  intros E Ecu T Eenc. unfold execute, click_handler, await, call.
  cbn [bind run]. rewrite E. cbn [awaited eval bind].
  rewrite Ecu. cbn [eval bind]. rewrite T, Eenc. reflexivity.
Qed.

End HandlerFacts.

(** ** The claims *)

Section Claims.
Context {num : JSNumber}.

(** Every run is one of the four of [HandlerFacts]. *)
Lemma execute_cases (h : host) :
  (exists reason,
     call_settles h publish_config_call = Rejected reason /\
     execute h =
       ([CallIssued publish_config_call; CallSettled (Rejected reason)],
        Abrupt (Rejection reason)))
  \/ (exists r cu,
        call_settles h publish_config_call = Fulfilled r /\
        commit_url_of r = Normal cu /\ ToBoolean cu = false /\
        execute h =
          ([CallIssued publish_config_call; CallSettled (Fulfilled r);
            MsgprintShown {| title := lit "Published";
                             message := lit "Committed to GitHub.";
                             indicator := lit "green" |};
            ReloadInvoked],
           awaited (reload_settles h)))
  \/ (exists r cu href text,
        call_settles h publish_config_call = Fulfilled r /\
        commit_url_of r = Normal cu /\ ToBoolean cu = true /\
        ToString cu = Normal text /\ Encode text = Normal href /\
        execute h =
          ([CallIssued publish_config_call; CallSettled (Fulfilled r);
            MsgprintShown {| title := lit "Published";
                             message := lit "Committed to GitHub: " ++ anchor href text;
                             indicator := lit "green" |};
            ReloadInvoked],
           awaited (reload_settles h)))
  \/ (exists r cu e,
        call_settles h publish_config_call = Fulfilled r /\
        commit_url_of r = Normal cu /\ ToBoolean cu = true /\
        encodeURI cu = Abrupt e /\
        execute h =
          ([CallIssued publish_config_call; CallSettled (Fulfilled r)], Abrupt e)).
Proof.
  destruct (call_settles h publish_config_call) as [r|reason] eqn:E.
  - right. destruct (commit_url_of_total r) as [cu Ecu].
    destruct (ToBoolean cu) eqn:T.
    + right. destruct (encodeURI cu) as [href|e] eqn:Eenc.
      * left. destruct (encodeURI_ToString cu Eenc) as (text & Etext & Ehref).
        exists r, cu, href, text.
        repeat split; eauto using execute_linked.
      * right. exists r, cu, e. repeat split; eauto using execute_throws.
    + left. exists r, cu. repeat split; eauto using execute_generic.
  - left. exists reason. split; auto using execute_rejected.
Qed.

(** The message of the linked notification, written out. *)
Lemma linked_message (href text : jsstring) :
  lit "Committed to GitHub: " ++ anchor href text =
  lit "Committed to GitHub: <a href=" ++ quoted href
  ++ lit " target=" ++ quoted (lit "_blank")
  ++ lit " rel=" ++ quoted (lit "noreferrer")
  ++ lit ">" ++ text ++ lit "</a>".
Proof. reflexivity. Qed.

Lemma needs_escaping_nonempty (s : jsstring) :
  needs_escaping s = true -> ToBoolean (JStr s) = true.
Proof. destruct s; [discriminate | reflexivity]. Qed.

(** C1 (as amended): for every successful response whose [commit_url] is a
    non-empty string without an unpaired surrogate, the click shows exactly
    one notification, titled "Published", whose body holds an anchor with
    the percent-encoded URL as its [href] (the encoding holds no double
    quote, so the attribute ends where the template closes it), the URL
    itself as its text and [target="_blank"]; the reload is invoked once,
    after the notification. *)
Theorem published_with_link (h : host) (r : value) (s : jsstring) :
  call_settles h publish_config_call = Fulfilled r ->
  commit_url_of r = Normal (JStr s) ->
  s <> [] ->
  isWellFormed s = true ->
  exists href,
    Encode s = Normal href /\
    ~ In dquote href /\
    fst (execute h) =
      [CallIssued publish_config_call; CallSettled (Fulfilled r);
       MsgprintShown
         {| title := lit "Published";
            message :=
              lit "Committed to GitHub: <a href=" ++ quoted href
              ++ lit " target=" ++ quoted (lit "_blank")
              ++ lit " rel=" ++ quoted (lit "noreferrer")
              ++ lit ">" ++ s ++ lit "</a>";
            indicator := lit "green" |};
       ReloadInvoked] /\
    count is_msgprint (fst (execute h)) = 1%nat /\
    count is_reload (fst (execute h)) = 1%nat.
Proof.
  intros E Ecu Hne Hwf.
  apply Encode_succeeds_iff in Hwf. destruct Hwf as [href Ehref].
  assert (T : ToBoolean (JStr s) = true) by (destruct s; [congruence | reflexivity]).
  exists href. split; [exact Ehref|]. split; [eapply Encode_no_dquote; eauto|].
  rewrite (execute_linked h E Ecu T eq_refl Ehref), linked_message.
  repeat split.
Qed.

(** C2: when [commit_url] is a string that needs escaping and [href] is its
    percent-encoded form, the anchor's [href] attribute holds [href], which
    is made of unreserved characters and [%] only and differs from the URL,
    while the link text is the URL as it came. *)
Theorem href_encoded_text_verbatim (h : host) (r : value) (s href : jsstring) :
  call_settles h publish_config_call = Fulfilled r ->
  commit_url_of r = Normal (JStr s) ->
  needs_escaping s = true ->
  Encode s = Normal href ->
  forallb uri_safe href = true /\
  href <> s /\
  exists m,
    fst (execute h) =
      [CallIssued publish_config_call; CallSettled (Fulfilled r);
       MsgprintShown m; ReloadInvoked] /\
    message m =
      lit "Committed to GitHub: <a href=" ++ quoted href
      ++ lit " target=" ++ quoted (lit "_blank")
      ++ lit " rel=" ++ quoted (lit "noreferrer")
      ++ lit ">" ++ s ++ lit "</a>".
Proof.
  intros E Ecu Hesc Ehref.
  split; [eapply Encode_safe; eauto|].
  split.
  - intros ->. destruct (Encode_length _ Ehref) as [_ Hlt].
    specialize (Hlt Hesc). lia.
  - rewrite (execute_linked h E Ecu (needs_escaping_nonempty s Hesc) eq_refl Ehref).
    eexists. split; [reflexivity|]. apply linked_message.
Qed.

(** C3: when the remote call rejects, the click shows no notification and
    invokes no reload; the handler's promise rejects with the very reason
    the call rejected with. *)
Theorem rejected_call_shows_nothing (h : host) (reason : value) :
  call_settles h publish_config_call = Rejected reason ->
  fst (execute h) =
    [CallIssued publish_config_call; CallSettled (Rejected reason)] /\
  snd (execute h) = Abrupt (Rejection reason) /\
  count is_msgprint (fst (execute h)) = 0%nat /\
  count is_reload (fst (execute h)) = 0%nat.
Proof.
  intros E. rewrite (execute_rejected h E). repeat split.
Qed.

(** C4: for every successful response whose [commit_url] is absent or
    falsy, the click shows the generic notification, whose body holds no
    anchor, and invokes the reload exactly once. *)
Theorem published_without_link (h : host) (r cu : value) :
  call_settles h publish_config_call = Fulfilled r ->
  commit_url_of r = Normal cu ->
  ToBoolean cu = false ->
  exists m,
    fst (execute h) =
      [CallIssued publish_config_call; CallSettled (Fulfilled r);
       MsgprintShown m; ReloadInvoked] /\
    message m = lit "Committed to GitHub." /\
    includes (lit "<a") (message m) = false /\
    count is_msgprint (fst (execute h)) = 1%nat /\
    count is_reload (fst (execute h)) = 1%nat.
Proof.
  intros E Ecu F. rewrite (execute_generic h E Ecu F).
  eexists. repeat split.
Qed.

Lemma split_log2 {A} (a b : A) pre e post :
  [a; b] = pre ++ e :: post ->
  (pre = [] /\ e = a) \/ (pre = [a] /\ e = b).
Proof.
  intros H.
  destruct pre as [|x1 [|x2 pre]]; cbn [app] in H.
  - injection H as <- _. auto.
  - injection H as <- <- _. auto.
  - injection H as _ _ H. destruct pre; discriminate H.
Qed.

Lemma split_log4 {A} (a b c d : A) pre e post :
  [a; b; c; d] = pre ++ e :: post ->
  (pre = [] /\ e = a) \/ (pre = [a] /\ e = b)
  \/ (pre = [a; b] /\ e = c) \/ (pre = [a; b; c] /\ e = d).
Proof.
  intros H.
  destruct pre as [|x1 [|x2 [|x3 [|x4 pre]]]]; cbn [app] in H.
  - injection H as <- _. auto.
  - injection H as <- <- _. auto.
  - injection H as <- <- <- _. auto 6.
  - injection H as <- <- <- <- _. auto 6.
  - injection H as _ _ _ _ H. destruct pre; discriminate H.
Qed.

Ltac in_log H :=
  cbn [fst In] in H;
  repeat match type of H with
         | _ \/ _ => destruct H as [H|H]
         | False => destruct H
         end;
  try discriminate H.

(** C5: in every run, wherever the reload stands in the log the call has
    settled successfully and a notification has been shown before it;
    wherever a notification stands the call has settled successfully before
    it and no reload has begun; and the settlement of the call comes after
    its issue and before any notification. *)
Theorem settle_notify_reload_order (h : host) (pre post : list event) (e : event) :
  fst (execute h) = pre ++ e :: post ->
  (e = ReloadInvoked ->
     (exists r, In (CallSettled (Fulfilled r)) pre) /\
     (exists m, In (MsgprintShown m) pre)) /\
  (forall m, e = MsgprintShown m ->
     (exists r, In (CallSettled (Fulfilled r)) pre) /\ ~ In ReloadInvoked pre) /\
  (forall p, e = CallSettled p ->
     In (CallIssued publish_config_call) pre /\
     (forall m, ~ In (MsgprintShown m) pre) /\ ~ In ReloadInvoked pre).
Proof.
  intros H.
  destruct (execute_cases h) as
    [(reason & _ & X) | [(r & cu & _ & _ & _ & X)
    | [(r & cu & href & text & _ & _ & _ & _ & _ & X) | (r & cu & ex & _ & _ & _ & _ & X)]]];
    rewrite X in H; cbn [fst] in H.
  - apply split_log2 in H. destruct H as [[-> ->] | [-> ->]];
      repeat split; try discriminate; intros; cbn [In]; try tauto;
      intros Hin; in_log Hin.
  - apply split_log4 in H.
    destruct H as [[-> ->] | [[-> ->] | [[-> ->] | [-> ->]]]];
      repeat split; try discriminate; intros; cbn [In]; eauto; try tauto;
      intros Hin; in_log Hin.
  - apply split_log4 in H.
    destruct H as [[-> ->] | [[-> ->] | [[-> ->] | [-> ->]]]];
      repeat split; try discriminate; intros; cbn [In]; eauto; try tauto;
      intros Hin; in_log Hin.
  - apply split_log2 in H. destruct H as [[-> ->] | [-> ->]];
      repeat split; try discriminate; intros; cbn [In]; try tauto;
      intros Hin; in_log Hin.
Qed.

(** C6 (as amended): one click issues exactly one remote call, to
    [publish_config] and without request parameters, and shows at most one
    notification and invokes at most one reload, whatever the response;
    when the call resolves and [commit_url] is falsy or passes through
    [encodeURI] without an exception (as every string without an unpaired
    surrogate does), exactly one notification is shown and exactly one
    reload is invoked. *)
Theorem single_invocation (h : host) :
  count is_call (fst (execute h)) = 1%nat /\
  (forall opts, In (CallIssued opts) (fst (execute h)) ->
     opts = publish_config_call) /\
  method publish_config_call = lit "ftg_lead_radar.api.publish_config" /\
  args publish_config_call = None /\
  (count is_msgprint (fst (execute h)) <= 1)%nat /\
  (count is_reload (fst (execute h)) <= 1)%nat /\
  (forall r cu,
     call_settles h publish_config_call = Fulfilled r ->
     commit_url_of r = Normal cu ->
     ToBoolean cu = false \/ (exists href, encodeURI cu = Normal href) ->
     count is_msgprint (fst (execute h)) = 1%nat /\
     count is_reload (fst (execute h)) = 1%nat) /\
  (forall r s,
     call_settles h publish_config_call = Fulfilled r ->
     commit_url_of r = Normal (JStr s) ->
     isWellFormed s = true ->
     count is_msgprint (fst (execute h)) = 1%nat /\
     count is_reload (fst (execute h)) = 1%nat).
Proof.
  assert (Hgen : forall r cu,
     call_settles h publish_config_call = Fulfilled r ->
     commit_url_of r = Normal cu ->
     ToBoolean cu = false \/ (exists href, encodeURI cu = Normal href) ->
     count is_msgprint (fst (execute h)) = 1%nat /\
     count is_reload (fst (execute h)) = 1%nat).
  { intros r cu E Ecu [F | [href Eenc]].
    - rewrite (execute_generic h E Ecu F). split; reflexivity.
    - destruct (ToBoolean cu) eqn:T.
      + destruct (encodeURI_ToString cu Eenc) as (text & Etext & Ehref).
        rewrite (execute_linked h E Ecu T Etext Ehref). split; reflexivity.
      + rewrite (execute_generic h E Ecu T). split; reflexivity. }
  repeat match goal with |- _ /\ _ => split end;
    try reflexivity; try exact Hgen.
  - destruct (execute_cases h) as
      [(reason & _ & X) | [(r & cu & _ & _ & _ & X)
      | [(r & cu & href & text & _ & _ & _ & _ & _ & X) | (r & cu & ex & _ & _ & _ & _ & X)]]];
      rewrite X; reflexivity.
  - intros opts Hin.
    destruct (execute_cases h) as
      [(reason & _ & X) | [(r & cu & _ & _ & _ & X)
      | [(r & cu & href & text & _ & _ & _ & _ & _ & X) | (r & cu & ex & _ & _ & _ & _ & X)]]];
      rewrite X in Hin; in_log Hin; injection Hin as <-; reflexivity.
  - destruct (execute_cases h) as
      [(reason & _ & X) | [(r & cu & _ & _ & _ & X)
      | [(r & cu & href & text & _ & _ & _ & _ & _ & X) | (r & cu & ex & _ & _ & _ & _ & X)]]];
      rewrite X; cbn; lia.
  - destruct (execute_cases h) as
      [(reason & _ & X) | [(r & cu & _ & _ & _ & X)
      | [(r & cu & href & text & _ & _ & _ & _ & _ & X) | (r & cu & ex & _ & _ & _ & _ & X)]]];
      rewrite X; cbn; lia.
  - intros r s E Ecu Hwf. apply (Hgen r (JStr s) E Ecu).
    apply Encode_succeeds_iff in Hwf. destruct Hwf as [href Ehref].
    right. exists href. exact Ehref.
Qed.

(** C7: whichever notification a click shows, its title is "Published" and
    its indicator is green. *)
Theorem same_title_and_indicator (h : host) (m : msgprint_opts) :
  In (MsgprintShown m) (fst (execute h)) ->
  title m = lit "Published" /\ indicator m = lit "green".
Proof.
  intros Hin.
  destruct (execute_cases h) as
    [(reason & _ & X) | [(r & cu & _ & _ & _ & X)
    | [(r & cu & href & text & _ & _ & _ & _ & _ & X) | (r & cu & ex & _ & _ & _ & _ & X)]]];
    rewrite X in Hin; in_log Hin; injection Hin as <-; split; reflexivity.
Qed.

(** C8: for every truthy [commit_url], the anchor of the notification a
    click shows carries [target="_blank"] and [rel="noreferrer"] right
    after its [href], whose value holds no double quote. *)
Theorem anchor_target_and_rel (h : host) (r cu : value) (m : msgprint_opts) :
  call_settles h publish_config_call = Fulfilled r ->
  commit_url_of r = Normal cu ->
  ToBoolean cu = true ->
  In (MsgprintShown m) (fst (execute h)) ->
  exists href text,
    encodeURI cu = Normal href /\
    ~ In dquote href /\
    message m =
      lit "Committed to GitHub: <a href=" ++ quoted href
      ++ lit " target=" ++ quoted (lit "_blank")
      ++ lit " rel=" ++ quoted (lit "noreferrer")
      ++ lit ">" ++ text ++ lit "</a>".
Proof.
  intros E Ecu T Hin.
  destruct (encodeURI cu) as [href|ex] eqn:Eenc.
  - destruct (encodeURI_ToString cu Eenc) as (text & Etext & Ehref).
    rewrite (execute_linked h E Ecu T Etext Ehref) in Hin.
    in_log Hin. injection Hin as <-.
    exists href, text. split; [reflexivity|].
    split; [eapply Encode_no_dquote; eauto | apply linked_message].
  - rewrite (execute_throws h E Ecu T Eenc) in Hin. in_log Hin.
Qed.

(** C9: for every truthy [commit_url], the link text of the notification a
    click shows is the string value of [commit_url] as it is (for a string,
    the string itself), between the end of the opening tag and the closing
    tag; only the [href] went through [encodeURI]; so each character of
    [commit_url] stands unescaped in the message. *)
Theorem link_text_unescaped (h : host) (r cu : value) (m : msgprint_opts) :
  call_settles h publish_config_call = Fulfilled r ->
  commit_url_of r = Normal cu ->
  ToBoolean cu = true ->
  In (MsgprintShown m) (fst (execute h)) ->
  exists href text,
    ToString cu = Normal text /\
    (forall s, cu = JStr s -> text = s) /\
    Encode text = Normal href /\
    message m =
      lit "Committed to GitHub: <a href=" ++ quoted href
      ++ lit " target=" ++ quoted (lit "_blank")
      ++ lit " rel=" ++ quoted (lit "noreferrer")
      ++ lit ">" ++ text ++ lit "</a>" /\
    (forall c, In c text -> In c (message m)).
Proof.
  intros E Ecu T Hin.
  destruct (encodeURI cu) as [href|ex] eqn:Eenc.
  - destruct (encodeURI_ToString cu Eenc) as (text & Etext & Ehref).
    rewrite (execute_linked h E Ecu T Etext Ehref) in Hin.
    in_log Hin. injection Hin as <-.
    exists href, text.
    split; [exact Etext|].
    split; [intros s ->; cbn in Etext; congruence|].
    split; [exact Ehref|].
    split; [apply linked_message|].
    intros c Hc.
    change (In c (lit "Committed to GitHub: " ++ anchor href text)).
    unfold anchor. do 8 (apply in_or_app; right).
    apply in_or_app. left. exact Hc.
  - rewrite (execute_throws h E Ecu T Eenc) in Hin. in_log Hin.
Qed.

Lemma lacks_commit_url_undefined (r : value) :
  lacks_commit_url r = true -> commit_url_of r = Normal JUndefined.
Proof.
  unfold lacks_commit_url, commit_url_of, optional_Get.
  destruct r as [| | | | | |props]; cbn [is_nullish Get result_bind];
    try reflexivity.
  destruct (own_property props (lit "message")) as [m|]; cbn [result_bind];
    [|reflexivity].
  destruct m as [| | | | | |mprops]; cbn [is_nullish Get result_bind];
    try reflexivity.
  destruct (own_property mprops (lit "commit_url")); [discriminate | reflexivity].
Qed.

(** C10: reading [r?.message?.commit_url] completes normally for every
    value (where a plain access on [undefined] or [null] throws), and a
    response that is [undefined], [null], without a [message] object or
    with a [message] without [commit_url] reads as [undefined], gets the
    generic notification and then the reload. *)
Theorem extraction_total (h : host) (r : value) :
  call_settles h publish_config_call = Fulfilled r ->
  lacks_commit_url r = true ->
  (forall v, exists cu, commit_url_of v = Normal cu) /\
  (forall key, Get JUndefined key = Abrupt TypeError /\
               Get JNull key = Abrupt TypeError) /\
  commit_url_of r = Normal JUndefined /\
  execute h =
    ([CallIssued publish_config_call; CallSettled (Fulfilled r);
      MsgprintShown {| title := lit "Published";
                       message := lit "Committed to GitHub.";
                       indicator := lit "green" |};
      ReloadInvoked],
     awaited (reload_settles h)).
Proof.
  intros E Hlacks.
  pose proof (lacks_commit_url_undefined r Hlacks) as Ecu.
  split; [exact commit_url_of_total|].
  split; [intros key; split; reflexivity|].
  split; [exact Ecu|].
  apply (execute_generic h E Ecu). reflexivity.
Qed.

End Claims.

(** ** Concrete runs *)

(** C1, at the URL of a commit. *)
Lemma published_with_link_witness :
  exists href,
    Encode commit_url_plain = Normal href /\
    ~ In dquote href /\
    fst (execute (host_resolving (response_with (JStr commit_url_plain)))) =
      [CallIssued publish_config_call;
       CallSettled (Fulfilled (response_with (JStr commit_url_plain)));
       MsgprintShown
         {| title := lit "Published";
            message :=
              lit "Committed to GitHub: <a href=" ++ quoted href
              ++ lit " target=" ++ quoted (lit "_blank")
              ++ lit " rel=" ++ quoted (lit "noreferrer")
              ++ lit ">" ++ commit_url_plain ++ lit "</a>";
            indicator := lit "green" |};
       ReloadInvoked] /\
    count is_msgprint
      (fst (execute (host_resolving (response_with (JStr commit_url_plain))))) = 1%nat /\
    count is_reload
      (fst (execute (host_resolving (response_with (JStr commit_url_plain))))) = 1%nat.
Proof.
  apply (published_with_link
           (host_resolving (response_with (JStr commit_url_plain)))
           (r := response_with (JStr commit_url_plain))
           (s := commit_url_plain));
    [reflexivity | reflexivity | discriminate | reflexivity].
Defined.

(** C1 as stated fails: the response is a success and its [commit_url] a
    non-empty string, yet [encodeURI] throws on the unpaired surrogate, so
    the click shows no notification and invokes no reload. *)
Lemma published_with_link_counterexample :
  commit_url_of (response_with (JStr lone_surrogate)) = Normal (JStr lone_surrogate) /\
  ToBoolean (JStr lone_surrogate) = true /\
  execute (host_resolving (response_with (JStr lone_surrogate))) =
    ([CallIssued publish_config_call;
      CallSettled (Fulfilled (response_with (JStr lone_surrogate)))],
     Abrupt URIError) /\
  count is_msgprint
    (fst (execute (host_resolving (response_with (JStr lone_surrogate))))) = 0%nat /\
  count is_reload
    (fst (execute (host_resolving (response_with (JStr lone_surrogate))))) = 0%nat.
Proof. repeat split. Qed.

(** C2, at a URL with spaces and a query string. *)
Lemma href_encoded_text_verbatim_witness :
  needs_escaping commit_url_spaced = true /\
  Encode commit_url_spaced = Normal commit_url_spaced_encoded /\
  forallb uri_safe commit_url_spaced_encoded = true /\
  commit_url_spaced_encoded <> commit_url_spaced /\
  exists m,
    fst (execute (host_resolving (response_with (JStr commit_url_spaced)))) =
      [CallIssued publish_config_call;
       CallSettled (Fulfilled (response_with (JStr commit_url_spaced)));
       MsgprintShown m; ReloadInvoked] /\
    message m =
      lit "Committed to GitHub: <a href=" ++ quoted commit_url_spaced_encoded
      ++ lit " target=" ++ quoted (lit "_blank")
      ++ lit " rel=" ++ quoted (lit "noreferrer")
      ++ lit ">" ++ commit_url_spaced ++ lit "</a>".
Proof.
  split; [reflexivity|]. split; [reflexivity|].
  apply (href_encoded_text_verbatim
           (host_resolving (response_with (JStr commit_url_spaced)))
           (r := response_with (JStr commit_url_spaced))
           (s := commit_url_spaced));
    reflexivity.
Defined.

(** C3, at a call rejected with an error message. *)
Lemma rejected_call_shows_nothing_witness :
  fst (execute (host_rejecting (JStr (lit "Server Error")))) =
    [CallIssued publish_config_call;
     CallSettled (Rejected (JStr (lit "Server Error")))] /\
  snd (execute (host_rejecting (JStr (lit "Server Error")))) =
    Abrupt (Rejection (JStr (lit "Server Error"))) /\
  count is_msgprint (fst (execute (host_rejecting (JStr (lit "Server Error"))))) = 0%nat /\
  count is_reload (fst (execute (host_rejecting (JStr (lit "Server Error"))))) = 0%nat.
Proof.
  apply (rejected_call_shows_nothing (host_rejecting (JStr (lit "Server Error")))).
  reflexivity.
Defined.

(** C4, at the empty object response. *)
Lemma published_without_link_witness :
  commit_url_of (JObj []) = Normal JUndefined /\
  exists m,
    fst (execute (host_resolving (JObj []))) =
      [CallIssued publish_config_call; CallSettled (Fulfilled (JObj []));
       MsgprintShown m; ReloadInvoked] /\
    message m = lit "Committed to GitHub." /\
    includes (lit "<a") (message m) = false /\
    count is_msgprint (fst (execute (host_resolving (JObj [])))) = 1%nat /\
    count is_reload (fst (execute (host_resolving (JObj [])))) = 1%nat.
Proof.
  split; [reflexivity|].
  apply (published_without_link (host_resolving (JObj []))
           (r := JObj []) (cu := JUndefined));
    reflexivity.
Defined.

(** C5, at the reload of a run without URL: the settlement and the
    notification stand before it. *)
Lemma settle_notify_reload_order_witness :
  (exists r, In (CallSettled (Fulfilled r))
               [CallIssued publish_config_call; CallSettled (Fulfilled (JObj []));
                MsgprintShown generic_notification]) /\
  (exists m, In (MsgprintShown m)
               [CallIssued publish_config_call; CallSettled (Fulfilled (JObj []));
                MsgprintShown generic_notification]).
Proof.
  apply (@settle_notify_reload_order _ (host_resolving (JObj []))
           [CallIssued publish_config_call; CallSettled (Fulfilled (JObj []));
            MsgprintShown generic_notification]
           [] ReloadInvoked);
    reflexivity.
Defined.

(** C6 as stated fails: the call resolves, with a URL cut in the middle of
    a surrogate pair; one call is issued, but no notification is shown and
    no reload is invoked. *)
Lemma single_invocation_counterexample :
  call_settles (host_resolving (response_with (JStr commit_url_cut)))
    publish_config_call = Fulfilled (response_with (JStr commit_url_cut)) /\
  count is_call
    (fst (execute (host_resolving (response_with (JStr commit_url_cut))))) = 1%nat /\
  count is_msgprint
    (fst (execute (host_resolving (response_with (JStr commit_url_cut))))) = 0%nat /\
  count is_reload
    (fst (execute (host_resolving (response_with (JStr commit_url_cut))))) = 0%nat /\
  snd (execute (host_resolving (response_with (JStr commit_url_cut)))) =
    Abrupt URIError.
Proof. repeat split. Qed.

(** C6, at the URL of a commit: one call, one notification, one reload. *)
Lemma single_invocation_witness :
  count is_call
    (fst (execute (host_resolving (response_with (JStr commit_url_plain))))) = 1%nat /\
  count is_msgprint
    (fst (execute (host_resolving (response_with (JStr commit_url_plain))))) = 1%nat /\
  count is_reload
    (fst (execute (host_resolving (response_with (JStr commit_url_plain))))) = 1%nat.
Proof.
  destruct (single_invocation
              (host_resolving (response_with (JStr commit_url_plain))))
    as (Hcall & _ & _ & _ & _ & _ & _ & Hstr).
  split; [exact Hcall|].
  apply (Hstr (response_with (JStr commit_url_plain)) commit_url_plain);
    reflexivity.
Defined.

(** C7, at the notification of a run without URL. *)
Lemma same_title_and_indicator_witness :
  title generic_notification = lit "Published" /\
  indicator generic_notification = lit "green".
Proof.
  apply (same_title_and_indicator (host_resolving (JObj []))).
  cbn. right. right. left. reflexivity.
Defined.

(** C8, at a truthy [commit_url] that is a number. *)
Lemma anchor_target_and_rel_witness :
  exists href text,
    encodeURI commit_url_number = Normal href /\
    ~ In dquote href /\
    lit "Committed to GitHub: " ++ anchor (lit "42") (lit "42") =
      lit "Committed to GitHub: <a href=" ++ quoted href
      ++ lit " target=" ++ quoted (lit "_blank")
      ++ lit " rel=" ++ quoted (lit "noreferrer")
      ++ lit ">" ++ text ++ lit "</a>".
Proof.
  apply (anchor_target_and_rel (host_resolving (response_with commit_url_number))
           (r := response_with commit_url_number) (cu := commit_url_number)
           {| title := lit "Published";
              message := lit "Committed to GitHub: " ++ anchor (lit "42") (lit "42");
              indicator := lit "green" |});
    [reflexivity | reflexivity | reflexivity |].
  cbn. right. right. left. reflexivity.
Defined.

(** C9, at a [commit_url] holding markup: it stands in the message as it
    came, angle brackets and ampersand included. *)
Lemma link_text_unescaped_witness :
  exists href text,
    ToString (JStr commit_url_markup) = Normal text /\
    (forall s, JStr commit_url_markup = JStr s -> text = s) /\
    Encode text = Normal href /\
    lit "Committed to GitHub: "
      ++ anchor (lit "%3Cb%3E&amp;%3C/b%3E") commit_url_markup =
      lit "Committed to GitHub: <a href=" ++ quoted href
      ++ lit " target=" ++ quoted (lit "_blank")
      ++ lit " rel=" ++ quoted (lit "noreferrer")
      ++ lit ">" ++ text ++ lit "</a>" /\
    (forall c, In c text ->
       In c (lit "Committed to GitHub: "
               ++ anchor (lit "%3Cb%3E&amp;%3C/b%3E") commit_url_markup)).
Proof.
  apply (link_text_unescaped
           (host_resolving (response_with (JStr commit_url_markup)))
           (r := response_with (JStr commit_url_markup))
           (cu := JStr commit_url_markup)
           {| title := lit "Published";
              message :=
                lit "Committed to GitHub: "
                ++ anchor (lit "%3Cb%3E&amp;%3C/b%3E") commit_url_markup;
              indicator := lit "green" |});
    [reflexivity | reflexivity | reflexivity |].
  cbn. right. right. left. reflexivity.
Defined.

(** C10, at the response [undefined]. *)
Lemma extraction_total_witness :
  (forall v : value, exists cu, commit_url_of v = Normal cu) /\
  (forall key, Get JUndefined key = Abrupt TypeError /\
               Get JNull key = Abrupt TypeError) /\
  commit_url_of JUndefined = Normal JUndefined /\
  execute (host_resolving JUndefined) =
    ([CallIssued publish_config_call; CallSettled (Fulfilled JUndefined);
      MsgprintShown generic_notification; ReloadInvoked],
     Normal tt).
Proof.
  apply (extraction_total (host_resolving JUndefined) (r := JUndefined));
    reflexivity.
Defined.

(** ** Further properties of the handler *)

Section HandlerProperties.
Context {num : JSNumber}.

Ltac step_encode E :=
  match type of E with
  | result_bind (Encode ?r) _ = Normal _ =>
      let t := fresh "t" in
      let Et := fresh "Et" in
      destruct (Encode r) as [t|] eqn:Et; [|discriminate E];
      cbn [result_bind] in E; injection E as <-
  end.

Ltac member_of_log H :=
  cbn [fst In] in H;
  repeat match type of H with
         | _ \/ _ => destruct H as [H|H]
         | False => destruct H
         end;
  try discriminate H.

Lemma includes_cons p (c : code_unit) s :
  includes p s = true -> includes p (c :: s) = true.
Proof.
  intros H. cbn [includes]. rewrite H. apply orb_true_r.
Qed.

Lemma includes_app_r p a s :
  includes p s = true -> includes p (a ++ s) = true.
Proof.
  intros H. induction a as [|c a IH]; [exact H|].
  cbn [app]. apply includes_cons. exact IH.
Qed.

Lemma includes_here p s : starts_with p s = true -> includes p s = true.
Proof.
  intros H. destruct s; cbn [includes]; rewrite H; reflexivity.
Qed.

(** A percent sign is escaped like any other character outside the
    unescaped set. *)
Lemma Encode_percent (s t : jsstring) :
  Encode s = Normal t -> In 37 s -> includes (lit "%25") t = true.
Proof.
  revert t.
  induction s as [|c|c d rest IH1 IH2] using jsstring_pair_ind; intros t E Hin.
  - destruct Hin.
  - destruct Hin as [->|[]]. cbn in E. injection E as <-. reflexivity.
  - rewrite Encode_cons2 in E. destruct (uri_unescaped c) eqn:U.
    + step_encode E. apply includes_cons. apply IH2; [reflexivity|].
      destruct Hin as [->|Hin]; [discriminate U | exact Hin].
    + destruct (is_trailing_surrogate c) eqn:Tc; [discriminate|].
      destruct (is_leading_surrogate c) eqn:Lc.
      * destruct (is_trailing_surrogate d) eqn:Td; [|discriminate].
        step_encode E. apply includes_app_r. apply IH1; [reflexivity|].
        destruct Hin as [->|[->|Hin]]; [discriminate Lc | discriminate Td | exact Hin].
      * step_encode E.
        destruct Hin as [->|Hin].
        -- apply includes_here. reflexivity.
        -- apply includes_app_r. apply IH2; [reflexivity | exact Hin].
Qed.

(** The only exception [Encode] throws is the URIError. *)
Lemma Encode_throws_URIError (s : jsstring) (ex : exn) :
  Encode s = Abrupt ex -> ex = URIError.
Proof.
  revert ex.
  induction s as [|c|c d rest IH1 IH2] using jsstring_pair_ind; intros ex Es.
  - discriminate.
  - cbn in Es. destruct (uri_unescaped c); [discriminate|].
    destruct (is_trailing_surrogate c); [congruence|].
    destruct (is_leading_surrogate c); [congruence | discriminate].
  - rewrite Encode_cons2 in Es.
    destruct (uri_unescaped c).
    + destruct (Encode (d :: rest)) as [t|ex'] eqn:Ed; [discriminate|].
      cbn in Es. injection Es as <-. now apply IH2.
    + destruct (is_trailing_surrogate c); [congruence|].
      destruct (is_leading_surrogate c).
      * destruct (is_trailing_surrogate d); [|congruence].
        destruct (Encode rest) as [t|ex'] eqn:Er; [discriminate|].
        cbn in Es. injection Es as <-. now apply IH1.
      * destruct (Encode (d :: rest)) as [t|ex'] eqn:Ed; [discriminate|].
        cbn in Es. injection Es as <-. now apply IH2.
Qed.

Lemma uri_safe_ascii (c : code_unit) :
  uri_safe c = true -> c < 128 /\ c <> 32 /\ c <> 34 /\ c <> 60 /\ c <> 62.
Proof.
  intros H. split.
  - unfold uri_safe in H. apply orb_true_iff in H. destruct H as [H|H].
    + now apply uri_unescaped_ascii.
    + apply N.eqb_eq in H. subst c. reflexivity.
  - repeat split; intros ->; discriminate H.
Qed.

Lemma awaited_unit_fulfilled (p : settled unit) :
  awaited p = Normal tt <-> p = Fulfilled tt.
Proof.
  destruct p as [[]|reason]; cbn; split; intros H; try reflexivity; discriminate H.
Qed.

(** X1: in every run the reload is invoked as often as a notification is
    shown, and a notification is always followed at once by the reload,
    which ends the log. *)
Theorem notification_then_reload (h : host) :
  count is_reload (fst (execute h)) = count is_msgprint (fst (execute h)) /\
  (forall pre m post,
     fst (execute h) = pre ++ MsgprintShown m :: post ->
     post = [ReloadInvoked]).
Proof.
  destruct (execute_cases h) as
    [(reason & _ & X) | [(r & cu & _ & _ & _ & X)
    | [(r & cu & href & text & _ & _ & _ & _ & _ & X) | (r & cu & ex & _ & _ & _ & _ & X)]]];
    rewrite X; (split; [reflexivity|]); intros pre m post H; cbn [fst] in H.
  - destruct (split_log2 _ _ _ H) as [[-> He]|[-> He]]; discriminate He.
  - destruct (split_log4 _ _ _ H) as [[-> He]|[[-> He]|[[-> He]|[-> He]]]];
      try discriminate He. cbn [app] in H. congruence.
  - destruct (split_log4 _ _ _ H) as [[-> He]|[[-> He]|[[-> He]|[-> He]]]];
      try discriminate He. cbn [app] in H. congruence.
  - destruct (split_log2 _ _ _ H) as [[-> He]|[-> He]]; discriminate He.
Qed.

(** X2: the handler's promise fulfils exactly when the call resolves, the
    [commit_url] read from the response is falsy or passes through
    [encodeURI], and the reload resolves. *)
Theorem handler_fulfils_iff (h : host) :
  snd (execute h) = Normal tt <->
  exists r cu,
    call_settles h publish_config_call = Fulfilled r /\
    commit_url_of r = Normal cu /\
    (ToBoolean cu = false \/ exists href, encodeURI cu = Normal href) /\
    reload_settles h = Fulfilled tt.
Proof.
  split.
  - intros H.
    destruct (execute_cases h) as
      [(reason & _ & X) | [(r & cu & E & Ecu & F & X)
      | [(r & cu & href & text & E & Ecu & T & Etext & Ehref & X)
        | (r & cu & ex & _ & _ & _ & _ & X)]]];
      rewrite X in H; cbn [snd] in H; try discriminate H.
    + exists r, cu. repeat split; auto. now apply awaited_unit_fulfilled.
    + exists r, cu. repeat split; auto.
      * right. exists href. unfold encodeURI. rewrite Etext. exact Ehref.
      * now apply awaited_unit_fulfilled.
  - intros (r & cu & E & Ecu & Hcu & Hreload).
    destruct (ToBoolean cu) eqn:T.
    + destruct Hcu as [F | [href Eenc]]; [discriminate F|].
      destruct (encodeURI_ToString cu Eenc) as (text & Etext & Ehref).
      rewrite (execute_linked h E Ecu T Etext Ehref). cbn [snd].
      now apply awaited_unit_fulfilled.
    + rewrite (execute_generic h E Ecu T). cbn [snd].
      now apply awaited_unit_fulfilled.
Qed.

(** X3: when the reload rejects after a successful publish, the handler's
    promise rejects with the reload's reason, and the notification has
    been shown all the same. *)
Theorem reload_rejection_propagates (h : host) (r cu reason : value) :
  call_settles h publish_config_call = Fulfilled r ->
  commit_url_of r = Normal cu ->
  ToBoolean cu = false \/ (exists href, encodeURI cu = Normal href) ->
  reload_settles h = Rejected reason ->
  snd (execute h) = Abrupt (Rejection reason) /\
  exists m,
    fst (execute h) =
      [CallIssued publish_config_call; CallSettled (Fulfilled r);
       MsgprintShown m; ReloadInvoked].
Proof.
  intros E Ecu Hcu Hreload.
  destruct (ToBoolean cu) eqn:T.
  - destruct Hcu as [F | [href Eenc]]; [discriminate F|].
    destruct (encodeURI_ToString cu Eenc) as (text & Etext & Ehref).
    rewrite (execute_linked h E Ecu T Etext Ehref), Hreload.
    split; [reflexivity | eexists; reflexivity].
  - rewrite (execute_generic h E Ecu T), Hreload.
    split; [reflexivity | eexists; reflexivity].
Qed.

(** X4: for a string [commit_url], the handler rejects with a URIError
    exactly when the string holds an unpaired surrogate, and then it has
    shown nothing and reloaded nothing. *)
Theorem string_url_error_iff (h : host) (r : value) (s : jsstring) :
  call_settles h publish_config_call = Fulfilled r ->
  commit_url_of r = Normal (JStr s) ->
  (snd (execute h) = Abrupt URIError <-> isWellFormed s = false) /\
  (isWellFormed s = false ->
   fst (execute h) =
     [CallIssued publish_config_call; CallSettled (Fulfilled r)]).
Proof.
  intros E Ecu.
  destruct (isWellFormed s) eqn:W.
  - split; [|discriminate].
    split; [|discriminate]. intros H. exfalso.
    apply Encode_succeeds_iff in W. destruct W as [href Ehref].
    destruct s as [|c s'].
    + rewrite (execute_generic h E Ecu eq_refl) in H. cbn [snd] in H.
      destruct (reload_settles h); discriminate H.
    + rewrite (execute_linked h E Ecu eq_refl eq_refl Ehref) in H. cbn [snd] in H.
      destruct (reload_settles h); discriminate H.
  - assert (Eenc : encodeURI (JStr s) = Abrupt URIError).
    { unfold encodeURI. cbn [ToString result_bind].
      destruct (Encode s) as [t|ex] eqn:Es.
      - assert (W' : isWellFormed s = true)
          by (apply Encode_succeeds_iff; exists t; exact Es).
        congruence.
      - f_equal. exact (Encode_throws_URIError s Es). }
    assert (T : ToBoolean (JStr s) = true) by (destruct s; [discriminate W | reflexivity]).
    rewrite (execute_throws h E Ecu T Eenc).
    split; [split; reflexivity | reflexivity].
Qed.

(** X5: a [commit_url] that is an object with an own [toString] property
    has no string conversion: the handler rejects with a TypeError, shows
    nothing and reloads nothing. *)
Theorem object_with_toString_throws (h : host) (r v : value)
    (props : list (jsstring * value)) :
  call_settles h publish_config_call = Fulfilled r ->
  commit_url_of r = Normal (JObj props) ->
  own_property props (lit "toString") = Some v ->
  execute h =
    ([CallIssued publish_config_call; CallSettled (Fulfilled r)],
     Abrupt TypeError).
Proof.
  intros E Ecu Hown.
  apply (execute_throws h E Ecu eq_refl).
  unfold encodeURI. cbn [ToString]. rewrite Hown. reflexivity.
Qed.

(** X6: a [commit_url] made only of characters [encodeURI] leaves alone is
    linked unchanged: the [href] and the link text are the same string. *)
Theorem plain_url_linked_unchanged (h : host) (r : value) (s : jsstring) :
  call_settles h publish_config_call = Fulfilled r ->
  commit_url_of r = Normal (JStr s) ->
  s <> [] ->
  forallb uri_unescaped s = true ->
  exists m,
    fst (execute h) =
      [CallIssued publish_config_call; CallSettled (Fulfilled r);
       MsgprintShown m; ReloadInvoked] /\
    message m =
      lit "Committed to GitHub: <a href=" ++ quoted s
      ++ lit " target=" ++ quoted (lit "_blank")
      ++ lit " rel=" ++ quoted (lit "noreferrer")
      ++ lit ">" ++ s ++ lit "</a>".
Proof.
  intros E Ecu Hne Hplain.
  assert (T : ToBoolean (JStr s) = true) by (destruct s; [congruence | reflexivity]).
  rewrite (execute_linked h E Ecu T eq_refl (Encode_unescaped s Hplain)).
  eexists. split; [reflexivity | apply linked_message].
Qed.

(** X7: a [commit_url] that holds a percent sign, such as a URL that is
    percent-encoded already, is encoded once more: the [href] holds [%25]
    and is not the URL. *)
Theorem percent_encoded_again (h : host) (r : value) (s : jsstring) :
  call_settles h publish_config_call = Fulfilled r ->
  commit_url_of r = Normal (JStr s) ->
  In 37 s ->
  isWellFormed s = true ->
  exists href m,
    Encode s = Normal href /\
    includes (lit "%25") href = true /\
    href <> s /\
    fst (execute h) =
      [CallIssued publish_config_call; CallSettled (Fulfilled r);
       MsgprintShown m; ReloadInvoked] /\
    message m =
      lit "Committed to GitHub: <a href=" ++ quoted href
      ++ lit " target=" ++ quoted (lit "_blank")
      ++ lit " rel=" ++ quoted (lit "noreferrer")
      ++ lit ">" ++ s ++ lit "</a>".
Proof.
  intros E Ecu Hin Hwf.
  apply Encode_succeeds_iff in Hwf. destruct Hwf as [href Ehref].
  assert (T : ToBoolean (JStr s) = true) by (destruct s; [destruct Hin | reflexivity]).
  assert (Hesc : needs_escaping s = true).
  { unfold needs_escaping. apply existsb_exists. exists 37. split; [exact Hin | reflexivity]. }
  exists href. eexists.
  split; [exact Ehref|].
  split; [eapply Encode_percent; eauto|].
  split.
  - intros ->. destruct (Encode_length _ Ehref) as [_ Hlt].
    specialize (Hlt Hesc). lia.
  - rewrite (execute_linked h E Ecu T eq_refl Ehref).
    split; [reflexivity | apply linked_message].
Qed.

(** X8: whatever truthy [commit_url] a notification is shown for, the value
    of the [href] attribute is made of ASCII characters only and holds no
    space, double quote or angle bracket. *)
Theorem href_is_markup_safe (h : host) (r cu : value) (m : msgprint_opts) :
  call_settles h publish_config_call = Fulfilled r ->
  commit_url_of r = Normal cu ->
  ToBoolean cu = true ->
  In (MsgprintShown m) (fst (execute h)) ->
  exists href text,
    message m =
      lit "Committed to GitHub: <a href=" ++ quoted href
      ++ lit " target=" ++ quoted (lit "_blank")
      ++ lit " rel=" ++ quoted (lit "noreferrer")
      ++ lit ">" ++ text ++ lit "</a>" /\
    (forall c, In c href ->
       c < 128 /\ c <> 32 /\ c <> 34 /\ c <> 60 /\ c <> 62).
Proof.
  intros E Ecu T Hin.
  destruct (encodeURI cu) as [href|ex] eqn:Eenc.
  - destruct (encodeURI_ToString cu Eenc) as (text & Etext & Ehref).
    rewrite (execute_linked h E Ecu T Etext Ehref) in Hin.
    member_of_log Hin. injection Hin as <-.
    exists href, text. split; [apply linked_message|].
    intros c Hc. apply uri_safe_ascii.
    exact (forallb_In _ _ _ (Encode_safe _ Ehref) Hc).
  - rewrite (execute_throws h E Ecu T Eenc) in Hin. member_of_log Hin.
Qed.

(** X9: of a resolved response only [message.commit_url] matters: two
    responses that agree on it get the same notification and as many
    reloads, and the same settlement when the reload settles alike. *)
Theorem only_commit_url_matters (h1 h2 : host) (r1 r2 : value) :
  call_settles h1 publish_config_call = Fulfilled r1 ->
  call_settles h2 publish_config_call = Fulfilled r2 ->
  commit_url_of r1 = commit_url_of r2 ->
  filter is_msgprint (fst (execute h1)) = filter is_msgprint (fst (execute h2)) /\
  count is_reload (fst (execute h1)) = count is_reload (fst (execute h2)) /\
  (reload_settles h1 = reload_settles h2 -> snd (execute h1) = snd (execute h2)).
Proof.
  intros E1 E2 Heq.
  destruct (commit_url_of_total r1) as [cu Ecu1].
  assert (Ecu2 : commit_url_of r2 = Normal cu) by congruence.
  destruct (ToBoolean cu) eqn:T.
  - destruct (encodeURI cu) as [href|ex] eqn:Eenc.
    + destruct (encodeURI_ToString cu Eenc) as (text & Etext & Ehref).
      rewrite (execute_linked h1 E1 Ecu1 T Etext Ehref),
              (execute_linked h2 E2 Ecu2 T Etext Ehref).
      repeat split. cbn [snd]. intros ->. reflexivity.
    + rewrite (execute_throws h1 E1 Ecu1 T Eenc),
              (execute_throws h2 E2 Ecu2 T Eenc).
      repeat split.
  - rewrite (execute_generic h1 E1 Ecu1 T), (execute_generic h2 E2 Ecu2 T).
    repeat split. cbn [snd]. intros ->. reflexivity.
Qed.

(** X10: the handler does not check that [commit_url] is a string: an
    object without an own [toString] is linked through its string
    conversion, with [[object Object]] as the link text. *)
Theorem object_linked_as_string (h : host) (r : value)
    (props : list (jsstring * value)) :
  call_settles h publish_config_call = Fulfilled r ->
  commit_url_of r = Normal (JObj props) ->
  own_property props (lit "toString") = None ->
  exists m,
    fst (execute h) =
      [CallIssued publish_config_call; CallSettled (Fulfilled r);
       MsgprintShown m; ReloadInvoked] /\
    message m =
      lit "Committed to GitHub: <a href=" ++ quoted (lit "%5Bobject%20Object%5D")
      ++ lit " target=" ++ quoted (lit "_blank")
      ++ lit " rel=" ++ quoted (lit "noreferrer")
      ++ lit ">" ++ lit "[object Object]" ++ lit "</a>".
Proof.
  intros E Ecu Hown.
  assert (Etext : ToString (JObj props) = Normal (lit "[object Object]"))
    by (cbn [ToString]; rewrite Hown; reflexivity).
  assert (Ehref : Encode (lit "[object Object]") = Normal (lit "%5Bobject%20Object%5D"))
    by reflexivity.
  rewrite (execute_linked h E Ecu eq_refl Etext Ehref).
  eexists. split; reflexivity.
Qed.

End HandlerProperties.

(** ** Further concrete runs *)

(** X3, at an empty response followed by a reload that fails. *)
Lemma reload_rejection_propagates_witness :
  snd (execute (host_reload_rejecting (JObj []) (JStr (lit "Network Error")))) =
    Abrupt (Rejection (JStr (lit "Network Error"))) /\
  exists m,
    fst (execute (host_reload_rejecting (JObj []) (JStr (lit "Network Error")))) =
      [CallIssued publish_config_call; CallSettled (Fulfilled (JObj []));
       MsgprintShown m; ReloadInvoked].
Proof.
  apply (reload_rejection_propagates
           (host_reload_rejecting (JObj []) (JStr (lit "Network Error")))
           (r := JObj []) (cu := JUndefined));
    [reflexivity | reflexivity | left; reflexivity | reflexivity].
Defined.

(** X4, at a URL cut in the middle of a surrogate pair. *)
Lemma string_url_error_iff_witness :
  (snd (execute (host_resolving (response_with (JStr commit_url_cut)))) =
     Abrupt URIError <-> isWellFormed commit_url_cut = false) /\
  (isWellFormed commit_url_cut = false ->
   fst (execute (host_resolving (response_with (JStr commit_url_cut)))) =
     [CallIssued publish_config_call;
      CallSettled (Fulfilled (response_with (JStr commit_url_cut)))]).
Proof.
  apply (string_url_error_iff
           (host_resolving (response_with (JStr commit_url_cut)))
           (r := response_with (JStr commit_url_cut)));
    reflexivity.
Defined.

(** X5, at a [commit_url] object whose [toString] is [null]. *)
Lemma object_with_toString_throws_witness :
  execute (host_resolving (response_with (JObj [(lit "toString", JNull)]))) =
    ([CallIssued publish_config_call;
      CallSettled (Fulfilled (response_with (JObj [(lit "toString", JNull)])))],
     Abrupt TypeError).
Proof.
  apply (object_with_toString_throws
           (host_resolving (response_with (JObj [(lit "toString", JNull)])))
           (r := response_with (JObj [(lit "toString", JNull)]))
           (v := JNull) (props := [(lit "toString", JNull)]));
    reflexivity.
Defined.

(** X6, at the URL of a commit. *)
Lemma plain_url_linked_unchanged_witness :
  exists m,
    fst (execute (host_resolving (response_with (JStr commit_url_plain)))) =
      [CallIssued publish_config_call;
       CallSettled (Fulfilled (response_with (JStr commit_url_plain)));
       MsgprintShown m; ReloadInvoked] /\
    message m =
      lit "Committed to GitHub: <a href=" ++ quoted commit_url_plain
      ++ lit " target=" ++ quoted (lit "_blank")
      ++ lit " rel=" ++ quoted (lit "noreferrer")
      ++ lit ">" ++ commit_url_plain ++ lit "</a>".
Proof.
  apply (plain_url_linked_unchanged
           (host_resolving (response_with (JStr commit_url_plain)))
           (r := response_with (JStr commit_url_plain)));
    [reflexivity | reflexivity | discriminate | reflexivity].
Defined.

(** X7, at a URL whose space is escaped already: [%20] becomes [%2520]. *)
Lemma percent_encoded_again_witness :
  Encode commit_url_encoded = Normal commit_url_encoded_twice /\
  exists href m,
    Encode commit_url_encoded = Normal href /\
    includes (lit "%25") href = true /\
    href <> commit_url_encoded /\
    fst (execute (host_resolving (response_with (JStr commit_url_encoded)))) =
      [CallIssued publish_config_call;
       CallSettled (Fulfilled (response_with (JStr commit_url_encoded)));
       MsgprintShown m; ReloadInvoked] /\
    message m =
      lit "Committed to GitHub: <a href=" ++ quoted href
      ++ lit " target=" ++ quoted (lit "_blank")
      ++ lit " rel=" ++ quoted (lit "noreferrer")
      ++ lit ">" ++ commit_url_encoded ++ lit "</a>".
Proof.
  split; [reflexivity|].
  apply (percent_encoded_again
           (host_resolving (response_with (JStr commit_url_encoded)))
           (r := response_with (JStr commit_url_encoded)));
    [reflexivity | reflexivity | | reflexivity].
  unfold commit_url_encoded. cbn. do 39 right. left. reflexivity.
Defined.

(** X8, at a URL with spaces. *)
Lemma href_is_markup_safe_witness :
  exists href text,
    lit "Committed to GitHub: "
      ++ anchor commit_url_spaced_encoded commit_url_spaced =
      lit "Committed to GitHub: <a href=" ++ quoted href
      ++ lit " target=" ++ quoted (lit "_blank")
      ++ lit " rel=" ++ quoted (lit "noreferrer")
      ++ lit ">" ++ text ++ lit "</a>" /\
    (forall c, In c href ->
       c < 128 /\ c <> 32 /\ c <> 34 /\ c <> 60 /\ c <> 62).
Proof.
  apply (href_is_markup_safe
           (host_resolving (response_with (JStr commit_url_spaced)))
           (r := response_with (JStr commit_url_spaced))
           (cu := JStr commit_url_spaced)
           {| title := lit "Published";
              message :=
                lit "Committed to GitHub: "
                ++ anchor commit_url_spaced_encoded commit_url_spaced;
              indicator := lit "green" |});
    [reflexivity | reflexivity | reflexivity |].
  cbn. right. right. left. reflexivity.
Defined.

(** X9, at two responses with the same [commit_url], one of them with
    other fields around it. *)
Lemma only_commit_url_matters_witness :
  filter is_msgprint
    (fst (execute (host_resolving (response_with (JStr commit_url_plain))))) =
  filter is_msgprint
    (fst (execute (host_resolving (response_with_more (JStr commit_url_plain))))) /\
  count is_reload
    (fst (execute (host_resolving (response_with (JStr commit_url_plain))))) =
  count is_reload
    (fst (execute (host_resolving (response_with_more (JStr commit_url_plain))))) /\
  (reload_settles (host_resolving (response_with (JStr commit_url_plain))) =
   reload_settles (host_resolving (response_with_more (JStr commit_url_plain))) ->
   snd (execute (host_resolving (response_with (JStr commit_url_plain)))) =
   snd (execute (host_resolving (response_with_more (JStr commit_url_plain))))).
Proof.
  apply (only_commit_url_matters
           (host_resolving (response_with (JStr commit_url_plain)))
           (host_resolving (response_with_more (JStr commit_url_plain)))
           (r1 := response_with (JStr commit_url_plain))
           (r2 := response_with_more (JStr commit_url_plain)));
    reflexivity.
Defined.

(** X10, at an empty object as [commit_url]. *)
Lemma object_linked_as_string_witness :
  exists m,
    fst (execute (host_resolving (response_with (JObj [])))) =
      [CallIssued publish_config_call;
       CallSettled (Fulfilled (response_with (JObj [])));
       MsgprintShown m; ReloadInvoked] /\
    message m =
      lit "Committed to GitHub: <a href=" ++ quoted (lit "%5Bobject%20Object%5D")
      ++ lit " target=" ++ quoted (lit "_blank")
      ++ lit " rel=" ++ quoted (lit "noreferrer")
      ++ lit ">" ++ lit "[object Object]" ++ lit "</a>".
Proof.
  apply (object_linked_as_string
           (host_resolving (response_with (JObj [])))
           (r := response_with (JObj [])) (props := []));
    reflexivity.
Defined.
